(** * The sequential planner's guidance dispatcher

    A shallow embedding of [skills/planner/scripts/planner.py]: the two
    step selectors [get_planning_step_guidance] and
    [get_review_step_guidance], and the command-line entry point [main]
    that validates the step position and renders the report.

    Python values are modelled as follows.
    - [int] is [Z]; comparison, [+] and [-] are the ones of [Z].  The
      integers are unbounded, as in the language.  The interpreter's cap
      on the number of digits of an [int]/[str] conversion is modelled
      apart, by the selectors [get_planning_step_guidance_capped] and
      [get_review_step_guidance_capped], which can raise [ValueError].
    - [str] is [string] (the UTF-8 bytes of the text); the f-string
      conversion of an [int] is [str_of_int].
    - the dictionary with the two keys ["actions"] and ["next"] that
      both selectors return is the record [GuidanceResult].
    - [print], [sys.exit] and the two output streams are the monad
      [Proc] below. *)

From Stdlib Require Import ZArith List String Ascii Bool Lia.
From Stdlib Require Import DecimalString DecimalPos DecimalZ.
Import ListNotations.
Open Scope string_scope.
Open Scope list_scope.
Open Scope Z_scope.

(** ** Python strings *)

(** The characters the literals of the source write with an escape. *)
Definition nl : string := String "010"%char EmptyString.
Definition dquote : string := String "034"%char EmptyString.
Definition backslash : string := String "092"%char EmptyString.

(** [str(n)] for an [int]: decimal digits, with a leading [-] below zero. *)
Definition str_of_int (n : Z) : string :=
  NilZero.string_of_int (Z.to_int n).

(** [s * n]: [n] copies of [s], none when [n <= 0]. *)
Fixpoint str_repeat (s : string) (n : nat) : string :=
  match n with
  | O => EmptyString
  | S n' => (s ++ str_repeat s n')%string
  end.

Definition str_mul (s : string) (n : Z) : string :=
  str_repeat s (Z.to_nat n).

(** Truth value of a [str] and of a [list]: non-emptiness. *)
Definition str_truthy (s : string) : bool :=
  match s with
  | EmptyString => false
  | String _ _ => true
  end.

Definition list_truthy {A : Type} (l : list A) : bool :=
  match l with
  | [] => false
  | _ :: _ => true
  end.

(** [occurs_in needle hay]: [needle] is a contiguous part of [hay]. *)
Definition occurs_in (needle hay : string) : Prop :=
  exists before after : string, hay = (before ++ needle ++ after)%string.

(** ** The result of a selector *)

Record GuidanceResult : Type := mkGuidance {
  actions : list string;
  next : string
}.

(** ** The literal payloads, one per [return] of the source *)

(* get_planning_step_guidance, line 26 *)
Definition planning_final_verification : GuidanceResult :=
  {| actions :=
       [ "FINAL VERIFICATION — complete each section before writing.";
         EmptyString;
         "<planning_context_verification>";
         "TW and QR consume this section VERBATIM. Quality here =";
         "quality of annotations and risk detection downstream.";
         EmptyString;
         "Decision Log:";
         "  - What major architectural choice did you make?";
         "  - What is the multi-step reasoning chain for that choice?";
         "  - What micro-decisions (timeouts, data structures) need";
         "    rationale for TW to document?";
         EmptyString;
         "Rejected Alternatives:";
         "  - What approach did you NOT take?";
         "  - What concrete reason ruled it out?";
         EmptyString;
         "Known Risks:";
         "  - What failure modes exist?";
         "  - What mitigation or acceptance rationale exists for each?";
         "</planning_context_verification>";
         EmptyString;
         "<invisible_knowledge_verification>";
         "This section sources README.md content. Skip if trivial.";
         EmptyString;
         "  - What is the component relationship diagram?";
         "  - What is the data flow through the system?";
         "  - Why is the module organization structured this way?";
         "  - What invariants must be maintained?";
         "  - What tradeoffs were made (and their costs/benefits)?";
         "</invisible_knowledge_verification>";
         EmptyString;
         "<milestone_verification>";
         "For EACH milestone, verify:";
         "  - File paths: exact (src/auth/handler.py) not vague?";
         "  - Requirements: specific behaviors, not 'handle X'?";
         "  - Acceptance criteria: testable pass/fail assertions?";
         "  - Code changes: diff format for non-trivial logic?";
         "  - Uncertainty flags: added where applicable?";
         "  - Contracts: defined for PUBLIC APIs and complex logic?";
         "</milestone_verification>";
         EmptyString;
         "<documentation_milestone_verification>";
         "  - Does a Documentation milestone exist?";
         "  - Does CLAUDE.md use TABULAR INDEX format (not prose)?";
         "  - Is README.md included only if Invisible Knowledge has";
         "    content?";
         "</documentation_milestone_verification>";
         EmptyString;
         "<comment_hygiene_verification>";
         "Comments in code snippets will be transcribed VERBATIM to code.";
         "Write in TIMELESS PRESENT -- describe what the code IS, not what";
         "you are changing.";
         EmptyString;
         "CONTAMINATED: '// Added mutex to fix race condition'";
         "CLEAN: '// Mutex serializes cache access from concurrent requests'";
         EmptyString;
         "CONTAMINATED: '// Replaces per-tag logging with summary'";
         "CLEAN: '// Single summary line; per-tag avoids 1500+ lines'";
         EmptyString;
         "CONTAMINATED: '// After the retry loop' (location directive)";
         "CLEAN: (delete -- diff context encodes location)";
         EmptyString;
         "TW will review, but starting clean reduces rework.";
         "</comment_hygiene_verification>" ];
     next :=
       ("PLANNING PHASE COMPLETE." ++ nl ++ nl
         ++ "1. Write plan to file using the format from SKILL.md" ++ nl ++ nl
         ++ "============================================" ++ nl
         ++ ">>> ACTION REQUIRED: INVOKE REVIEW PHASE <<<" ++ nl
         ++ "============================================" ++ nl ++ nl
         ++ "SKIPPING REVIEW MEANS:" ++ nl
         ++ "  - Developer has NO prepared comments to transcribe" ++ nl
         ++ "  - Code ships without WHY documentation" ++ nl
         ++ "  - QR findings surface during execution, not before" ++ nl ++ nl
         ++ "2. Run this command to start review:" ++ nl ++ nl
         ++ "   python3 planner.py --phase review --step-number 1 --total-steps 4 " ++ backslash ++ nl
         ++ "     --thoughts " ++ dquote ++ "Plan written to [path]" ++ dquote ++ nl ++ nl
         ++ "Review phase:" ++ nl
         ++ "  Step 1: @agent-technical-writer annotates code snippets" ++ nl
         ++ "  Step 2: @agent-contract-specifier validates/defines contracts" ++ nl
         ++ "  Step 3: @agent-test-specifier defines test specifications" ++ nl
         ++ "  Step 4: @agent-quality-reviewer validates the plan" ++ nl
         ++ "  Then: Ready for /plan-execution")%string |}.

(* get_planning_step_guidance, line 116 *)
Definition planning_step_1 (next_step : Z) : GuidanceResult :=
  {| actions :=
       [ "You are an expert architect. Proceed with confidence.";
         EmptyString;
         "PRECONDITION: Confirm plan file path before proceeding.";
         EmptyString;
         "<step_1_checklist>";
         "Complete ALL items before invoking step 2:";
         EmptyString;
         "CONTEXT (understand before proposing):";
         "  - [ ] What code/systems does this touch?";
         "  - [ ] What patterns does the codebase follow?";
         "  - [ ] What prior decisions constrain this work?";
         EmptyString;
         "SCOPE (define boundaries):";
         "  - [ ] What exactly must be accomplished?";
         "  - [ ] What is OUT of scope?";
         EmptyString;
         "APPROACHES (consider alternatives):";
         "  - [ ] 2-3 options with Advantage/Disadvantage for each";
         EmptyString;
         "CONSTRAINTS (list by category):";
         "  - [ ] Technical: language, APIs, existing patterns";
         "  - [ ] Organizational: timeline, expertise, approvals";
         "  - [ ] Dependencies: external services, data formats";
         EmptyString;
         "SUCCESS (observable outcomes):";
         "  - [ ] Defined testable acceptance criteria";
         "</step_1_checklist>" ];
     next :=
       ("Invoke step " ++ str_of_int next_step ++ " with your context analysis and approach options.")%string |}.

(* get_planning_step_guidance, line 150 *)
Definition planning_step_2 (next_step : Z) : GuidanceResult :=
  {| actions :=
       [ "<step_2_evaluate_first>";
         "BEFORE deciding, evaluate each approach from step 1:";
         "  | Approach | P(success) | Failure mode | Backtrack cost |";
         EmptyString;
         "STOP CHECK: If ALL approaches show LOW probability or HIGH";
         "backtrack cost, STOP. Request clarification from user.";
         "</step_2_evaluate_first>";
         EmptyString;
         "<step_2_decide>";
         "Select approach. Record in Decision Log with MULTI-STEP chain:";
         EmptyString;
         "  INSUFFICIENT: 'Polling | Webhooks are unreliable'";
         "  SUFFICIENT:   'Polling | 30% webhook failure in testing";
         "                 -> would need fallback anyway -> simpler primary'";
         EmptyString;
         "Include BOTH architectural AND micro-decisions (timeouts, etc).";
         "</step_2_decide>";
         EmptyString;
         "<step_2_rejected>";
         "Document rejected alternatives with CONCRETE reasons.";
         "TW uses this for 'why not X' code comments.";
         "</step_2_rejected>";
         EmptyString;
         "<step_2_architecture>";
         "Capture in ASCII diagrams:";
         "  - Component relationships";
         "  - Data flow";
         "These go in Invisible Knowledge for README.md.";
         "</step_2_architecture>";
         EmptyString;
         "<step_2_milestones>";
         "Break into deployable increments:";
         "  - Each milestone: independently testable";
         "  - Scope: 1-3 files per milestone";
         "  - Map dependencies (circular = design problem)";
         "</step_2_milestones>" ];
     next :=
       ("Invoke step " ++ str_of_int next_step ++ " with your chosen approach (include state evaluation summary), architecture, and milestone structure.")%string |}.

(* get_planning_step_guidance, line 193 *)
Definition planning_step_3 : GuidanceResult :=
  {| actions :=
       [ "<step_3_risks>";
         "Document risks NOW. QR excludes documented risks from findings.";
         "Undocumented risks WILL be flagged.";
         EmptyString;
         "For each risk:";
         "  | Risk | Mitigation or 'Accepted: [reason]' |";
         "</step_3_risks>";
         EmptyString;
         "<step_3_uncertainty_flags>";
         "For EACH milestone, check these conditions -> add flag:";
         EmptyString;
         "  | Condition                          | Flag                    |";
         "  |------------------------------------|-------------------------|";
         "  | Multiple valid implementations     | needs TW rationale      |";
         "  | Depends on external system         | needs error review      |";
         "  | First use of pattern in codebase   | needs conformance check |";
         EmptyString;
         "Add to milestone: **Flags**: [list]";
         "</step_3_uncertainty_flags>";
         EmptyString;
         "<step_3_refine_milestones>";
         "Verify EACH milestone has:";
         EmptyString;
         "FILES — exact paths:";
         "  CORRECT: src/auth/handler.py";
         "  WRONG:   'auth files'";
         EmptyString;
         "REQUIREMENTS — specific behaviors:";
         "  CORRECT: 'retry 3x with exponential backoff, max 30s'";
         "  WRONG:   'handle errors'";
         EmptyString;
         "ACCEPTANCE CRITERIA — testable pass/fail:";
         "  CORRECT: 'Returns 429 after 3 failed attempts within 60s'";
         "  WRONG:   'Handles errors correctly'";
         EmptyString;
         "CODE CHANGES — diff format for non-trivial logic.";
         "</step_3_refine_milestones>";
         EmptyString;
         "<step_3_validate>";
         "Cross-check: Does the plan address ALL original requirements?";
         EmptyString;
         "CONTRACT CONSIDERATION:";
         "  Do any components need formal contracts?";
         "  - PUBLIC APIs or external interfaces?";
         "  - Complex validation logic with multiple approaches?";
         "  - State machines or stateful components?";
         "  - Error-prone operations (I/O, concurrency, parsing)?";
         "  - Security-sensitive code (auth, crypto, validation)?";
         EmptyString;
         "If YES to any: consider adding contract specification step before final verification.";
         "</step_3_validate>" ];
     next :=
       ("Options:" ++ nl
         ++ "  - If contracts needed: Invoke step 4 (adjust total-steps) with contract needs" ++ nl
         ++ "  - If no contracts: Invoke final verification step (current total-steps)")%string |}.

(* get_planning_step_guidance, line 255 *)
Definition planning_step_4 (next_step : Z) : GuidanceResult :=
  {| actions :=
       [ "<contract_specification_step>";
         "Define formal contracts for complex components identified in step 3.";
         EmptyString;
         "COMPONENTS NEEDING CONTRACTS:";
         "  Review each milestone for:";
         "  - PUBLIC APIs (user-facing functions)";
         "  - Complex validation (multiple valid approaches)";
         "  - State machines (state transitions)";
         "  - Error-prone logic (I/O, concurrency, parsing)";
         "  - Security-sensitive (authentication, authorization, cryptography)";
         EmptyString;
         "FOR EACH COMPONENT:";
         "  Define inline in milestone specification:";
         "  ";
         "  **Contracts**:";
         "  ";
         "  ### Contract: function_name";
         "  **Preconditions**: requires caller to provide [specific conditions]";
         "  **Postconditions**: ensures function returns/guarantees [specific outcomes]";
         "  **Boundary Conditions**: behavior for empty, null, zero, max [concrete values]";
         "  **Error Behaviors**: raises/returns [specific error types and conditions]";
         EmptyString;
         "TESTABILITY CHECK:";
         "  For each condition: What test would verify this?";
         "  If you can't describe a concrete test → rewrite the condition.";
         EmptyString;
         "See @agent-contract-specifier documentation for patterns and examples.";
         "</contract_specification_step>" ];
     next :=
       ("Invoke step " ++ str_of_int next_step ++ " with contracts defined, ready for final verification.")%string |}.

(* get_planning_step_guidance, line 291 *)
Definition planning_steps_5_plus (next_step : Z) (remaining : Z) : GuidanceResult :=
  {| actions :=
       [ "<backtrack_check>";
         "BEFORE proceeding, verify no dead ends:";
         "  - Has new information invalidated a prior decision?";
         "  - Is a milestone now impossible given discovered constraints?";
         "  - Are you adding complexity to work around a fundamental issue?";
         EmptyString;
         "If YES to any: invoke earlier step with --thoughts explaining change.";
         "</backtrack_check>";
         EmptyString;
         "<gap_analysis>";
         "Review current plan state. What's missing?";
         "  - Any milestone without exact file paths?";
         "  - Any acceptance criteria not testable pass/fail?";
         "  - Any non-trivial logic without diff-format code?";
         "  - Any milestone missing uncertainty flags where applicable?";
         "</gap_analysis>";
         EmptyString;
         "<planning_context_check>";
         "  - Decision Log: Every major choice has multi-step reasoning?";
         "  - Rejected Alternatives: At least one per major decision?";
         "  - Known Risks: All failure modes identified with mitigations?";
         "</planning_context_check>";
         EmptyString;
         "<developer_walkthrough>";
         "Walk through the plan as if you were Developer:";
         "  - Can you implement each milestone from the spec alone?";
         "  - Are requirements specific enough to avoid interpretation?";
         EmptyString;
         "If gaps remain, address them. If complete, reduce total_steps.";
         "</developer_walkthrough>" ];
     next :=
       ("Invoke step " ++ str_of_int next_step ++ ". " ++ str_of_int remaining ++ " step(s) remaining until completion. (Or invoke earlier step if backtracking.)")%string |}.

(* get_review_step_guidance, line 334 *)
Definition review_step_1 (next_step : Z) : GuidanceResult :=
  {| actions :=
       [ "<review_step_1_delegate_tw>";
         "DELEGATE to @agent-technical-writer:";
         EmptyString;
         "  <delegation>";
         "    <agent>@agent-technical-writer</agent>";
         "    <mode>plan-annotation</mode>";
         "    <plan_source>[path to plan file]</plan_source>";
         "    <task>";
         "      1. Read ## Planning Context section FIRST";
         "      2. Prioritize annotation by uncertainty (HIGH/MEDIUM/LOW)";
         "      3. Add WHY comments to code snippets from Decision Log";
         "      4. Enrich plan prose with rationale";
         "      5. Add documentation milestone if missing";
         "      6. FLAG any non-obvious logic lacking rationale";
         "    </task>";
         "  </delegation>";
         EmptyString;
         "Wait for @agent-technical-writer to complete.";
         "</review_step_1_delegate_tw>" ];
     next :=
       ("After TW completes, invoke step " ++ str_of_int next_step ++ ":" ++ nl
         ++ "   python3 planner.py --phase review --step-number 2 --total-steps 3 --thoughts " ++ dquote ++ "TW annotation complete, [summary of changes]" ++ dquote)%string |}.

(* get_review_step_guidance, line 364 *)
Definition review_step_2 (next_step : Z) : GuidanceResult :=
  {| actions :=
       [ "<review_step_2_delegate_contract_specifier>";
         "DELEGATE to @agent-contract-specifier:";
         EmptyString;
         "  <delegation>";
         "    <agent>@agent-contract-specifier</agent>";
         "    <mode>plan-analysis</mode>";
         "    <plan_source>[path to plan file]</plan_source>";
         "    <task>";
         "      Read plan and determine contract coverage scenario:";
         EmptyString;
         "      SCENARIO A (contracts exist in plan - defined in planning step 4):";
         "        1. Validate existing contracts are testable (RULE 0)";
         "        2. Check boundary condition coverage (empty, null, max, zero)";
         "        3. Identify gaps (missing preconditions, vague postconditions)";
         "        4. Enhance contracts where needed";
         "        5. Return validation report";
         EmptyString;
         "      SCENARIO B (no contracts or incomplete - planning step 4 was skipped):";
         "        1. Analyze plan and identify components needing contracts";
         "        2. Categorize by priority (HIGH/MEDIUM/LOW)";
         "        3. Define contracts for HIGH priority components";
         "        4. Add contracts to plan file (inline in milestones)";
         "        5. Flag MEDIUM priority for consideration";
         EmptyString;
         "      Contract Specifier will determine which scenario applies.";
         "    </task>";
         "  </delegation>";
         EmptyString;
         "Wait for @agent-contract-specifier to complete.";
         "</review_step_2_delegate_contract_specifier>" ];
     next :=
       ("After contract-specifier completes, invoke step " ++ str_of_int next_step ++ ":" ++ nl
         ++ "   python3 planner.py --phase review --step-number 3 --total-steps 4 --thoughts " ++ dquote ++ "Contracts validated/defined, [summary]" ++ dquote)%string |}.

(* get_review_step_guidance, line 405 *)
Definition review_step_3 (next_step : Z) : GuidanceResult :=
  {| actions :=
       [ "<review_step_3_delegate_test_specifier>";
         "DELEGATE to @agent-test-specifier:";
         EmptyString;
         "  <delegation>";
         "    <agent>@agent-test-specifier</agent>";
         "    <mode>plan-analysis</mode>";
         "    <plan_source>[path to plan file]</plan_source>";
         "    <task>";
         "      1. Analyze the plan and contracts to determine test strategies";
         "      2. Define unit tests for function-level behavior verification";
         "      3. Define integration tests for component interactions";
         "      4. Define property-based tests for invariants (when applicable)";
         "      5. Identify edge cases and boundary conditions from contracts";
         "      6. Specify coverage strategy (which test types verify which behaviors)";
         "      7. Add test specifications to plan file in each milestone's Test Specification section";
         "    </task>";
         "  </delegation>";
         EmptyString;
         "Wait for @agent-test-specifier to complete.";
         "</review_step_3_delegate_test_specifier>" ];
     next :=
       ("After test-specifier completes, invoke step " ++ str_of_int next_step ++ ":" ++ nl
         ++ "   python3 planner.py --phase review --step-number 4 --total-steps 4 --thoughts " ++ dquote ++ "Test specifications defined, [summary]" ++ dquote)%string |}.

(* get_review_step_guidance, line 436 *)
Definition review_step_4 : GuidanceResult :=
  {| actions :=
       [ "<review_step_4_delegate_qr>";
         "DELEGATE to @agent-quality-reviewer:";
         EmptyString;
         "  <delegation>";
         "    <agent>@agent-quality-reviewer</agent>";
         "    <mode>plan-review</mode>";
         "    <plan_source>[path to plan file]</plan_source>";
         "    <task>";
         "      1. Read ## Planning Context (constraints, known risks)";
         "      2. Write out CONTEXT FILTER before reviewing milestones";
         "      3. Apply RULE 0 (production reliability) with open questions";
         "      4. Apply RULE 1 (project conformance)";
         "      5. Check for contract circumvention (validate precondition → return default pattern)";
         "      6. Verify contracts are testable and complete";
         "      7. Verify test specifications cover all contract conditions";
         "      8. Check anticipated structural issues";
         "      9. Verify TW annotations pass actionability test";
         "      10. Accept risks documented in Known Risks as acknowledged";
         "      11. Pay extra attention to milestones with uncertainty flags";
         "    </task>";
         "    <expected_output>";
         "      Verdict: PASS | PASS_WITH_CONCERNS | NEEDS_CHANGES";
         "    </expected_output>";
         "  </delegation>";
         EmptyString;
         "Wait for @agent-quality-reviewer verdict.";
         "</review_step_4_delegate_qr>" ];
     next :=
       ("After QR returns verdict:" ++ nl
         ++ "  - PASS or PASS_WITH_CONCERNS: Invoke step 5 to complete review" ++ nl
         ++ "  - NEEDS_CHANGES: Address issues in plan, then restart review from step 1:" ++ nl
         ++ "    python3 planner.py --phase review --step-number 1 --total-steps 4 " ++ backslash ++ nl
         ++ "      --thoughts " ++ dquote ++ "Addressed QR feedback: [summary of changes]" ++ dquote)%string |}.

(* get_review_step_guidance, line 476 *)
Definition review_complete : GuidanceResult :=
  {| actions :=
       [ "<review_complete_verification>";
         "Confirm before proceeding to execution:";
         "  - TW has annotated code snippets with WHY comments?";
         "  - TW has enriched plan prose with rationale?";
         "  - TW flagged any gaps in Planning Context rationale?";
         "  - Contracts defined for PUBLIC APIs and complex components?";
         "  - Contracts are testable (verified by contract-specifier)?";
         "  - Test specifications defined for all non-trivial milestones?";
         "  - Test specifications cover all contract conditions?";
         "  - QR verdict is PASS or PASS_WITH_CONCERNS?";
         "  - Any concerns from QR are documented or addressed?";
         "</review_complete_verification>" ];
     next :=
       ("PLAN APPROVED." ++ nl ++ nl
         ++ "Ready for implementation via /plan-execution command." ++ nl
         ++ "Pass the plan file path as argument.")%string |}.

(* get_review_step_guidance, line 499 *)
Definition review_fallback (next_step : Z) : GuidanceResult :=
  {| actions :=
       [ "Continue review process as needed." ];
     next :=
       ("Invoke step " ++ str_of_int next_step ++ " when ready.")%string |}.

(** ** The two selectors *)

Definition get_planning_step_guidance (step_number total_steps : Z)
  : GuidanceResult :=
  let is_complete := step_number >=? total_steps in
  let next_step := step_number + 1 in
  if is_complete then planning_final_verification
  else if step_number =? 1 then planning_step_1 next_step
  else if step_number =? 2 then planning_step_2 next_step
  else if step_number =? 3 then planning_step_3
  else if step_number =? 4 then planning_step_4 next_step
  else
    (* Steps 5+ *)
    let remaining := total_steps - step_number in
    planning_steps_5_plus next_step remaining.

Definition get_review_step_guidance (step_number total_steps : Z)
  : GuidanceResult :=
  let is_complete := step_number >=? total_steps in
  let next_step := step_number + 1 in
  if step_number =? 1 then review_step_1 next_step
  else if step_number =? 2 then review_step_2 next_step
  else if step_number =? 3 then review_step_3 next_step
  else if step_number =? 4 then review_step_4
  else if is_complete then review_complete
  else review_fallback next_step.

(** ** Processes: two output streams and an exit status *)

Record Streams : Type := mkStreams {
  stdout : string;
  stderr : string
}.

Definition no_output : Streams := mkStreams EmptyString EmptyString.

(** A computation either returns or leaves through [sys.exit]. *)
Inductive Outcome (A : Type) : Type :=
| Returned (a : A)
| SystemExit (code : Z).

Arguments Returned {A} a.
Arguments SystemExit {A} code.

Definition Proc (A : Type) : Type := Streams -> Outcome A * Streams.

Definition ret {A : Type} (a : A) : Proc A :=
  fun st => (Returned a, st).

Definition bind {A B : Type} (m : Proc A) (k : A -> Proc B) : Proc B :=
  fun st =>
    match m st with
    | (Returned a, st') => k a st'
    | (SystemExit code, st') => (SystemExit code, st')
    end.

Notation "m ;; k" := (bind m (fun _ => k))
  (at level 61, right associativity).

(** [print(s)] and [print(s, file=sys.stderr)]: the text and a newline. *)
Definition print (s : string) : Proc unit :=
  fun st => (Returned tt, mkStreams (stdout st ++ s ++ nl) (stderr st)).

Definition print_stderr (s : string) : Proc unit :=
  fun st => (Returned tt, mkStreams (stdout st) (stderr st ++ s ++ nl)).

(** [print()] *)
Definition print_blank : Proc unit := print EmptyString.

Definition sys_exit (code : Z) : Proc unit :=
  fun st => (SystemExit code, st).

Definition when (b : bool) (m : Proc unit) : Proc unit :=
  if b then m else ret tt.

Fixpoint for_each {A : Type} (l : list A) (body : A -> Proc unit)
  : Proc unit :=
  match l with
  | [] => ret tt
  | x :: l' => body x ;; for_each l' body
  end.

(** The status the process ends with: zero after a normal return. *)
Definition exit_status {A : Type} (o : Outcome A) : Z :=
  match o with
  | Returned _ => 0
  | SystemExit code => code
  end.

(** ** The command line *)

(** [--phase] has [choices=["planning", "review"]]. *)
Inductive Phase : Type := planning | review.

Definition Phase_eqb (p q : Phase) : bool :=
  match p, q with
  | planning, planning => true
  | review, review => true
  | _, _ => false
  end.

(** The namespace [parser.parse_args()] returns. *)
Record Args : Type := mkArgs {
  phase : Phase;
  step_number : Z;
  total_steps : Z;
  thoughts : string
}.

Definition main (args : Args) : Proc unit :=
  when ((step_number args <? 1) || (total_steps args <? 1))
    (print_stderr "Error: step-number and total-steps must be >= 1" ;;
     sys_exit 1) ;;
  (* Get guidance based on phase *)
  let (guidance, phase_label) :=
    if Phase_eqb (phase args) planning
    then (get_planning_step_guidance (step_number args) (total_steps args),
          "PLANNING")
    else (get_review_step_guidance (step_number args) (total_steps args),
          "REVIEW") in
  let is_complete := step_number args >=? total_steps args in
  print (str_mul "=" 80) ;;
  print ("PLANNER - " ++ phase_label ++ " PHASE - Step "
         ++ str_of_int (step_number args) ++ " of "
         ++ str_of_int (total_steps args)) ;;
  print (str_mul "=" 80) ;;
  print_blank ;;
  print ("STATUS: "
         ++ (if is_complete then "phase_complete" else "in_progress")) ;;
  print_blank ;;
  print "YOUR THOUGHTS:" ;;
  print (thoughts args) ;;
  print_blank ;;
  when (list_truthy (actions guidance))
    ((if is_complete
      then print "FINAL CHECKLIST:"
      else print "REQUIRED ACTIONS:") ;;
     for_each (actions guidance) (fun action =>
       if str_truthy action (* Skip empty strings used for spacing *)
       then print ("  " ++ action)
       else print_blank) ;;
     print_blank) ;;
  print "NEXT:" ;;
  print (next guidance) ;;
  print_blank ;;
  print (str_mul "=" 80).

(** Running the script: [main()] on fresh streams. *)
Definition run_main (args : Args) : Z * Streams :=
  let (o, st) := main args no_output in (exit_status o, st).

(** ** Reading the rendered report *)

(** The text [main] writes to standard output for a valid step position,
    in one piece: every [print] of the function, in order. *)
Definition render_action (action : string) : string :=
  if str_truthy action then ("  " ++ action ++ nl)%string else nl.

Fixpoint render_actions (l : list string) : string :=
  match l with
  | [] => EmptyString
  | action :: l' => (render_action action ++ render_actions l')%string
  end.

Definition guidance_of (args : Args) : GuidanceResult :=
  match phase args with
  | planning => get_planning_step_guidance (step_number args) (total_steps args)
  | review => get_review_step_guidance (step_number args) (total_steps args)
  end.

Definition phase_label_of (p : Phase) : string :=
  match p with
  | planning => "PLANNING"
  | review => "REVIEW"
  end.

Definition title_line (args : Args) : string :=
  ("PLANNER - " ++ phase_label_of (phase args) ++ " PHASE - Step "
   ++ str_of_int (step_number args) ++ " of "
   ++ str_of_int (total_steps args))%string.

Definition status_text (args : Args) : string :=
  ("STATUS: "
   ++ (if step_number args >=? total_steps args
       then "phase_complete" else "in_progress"))%string.

Definition actions_block (args : Args) : string :=
  let guidance := guidance_of args in
  if list_truthy (actions guidance)
  then ((if step_number args >=? total_steps args
         then "FINAL CHECKLIST:" else "REQUIRED ACTIONS:")
        ++ nl ++ render_actions (actions guidance) ++ nl)%string
  else EmptyString.

Definition report_text (args : Args) : string :=
  (str_mul "=" 80 ++ nl
   ++ title_line args ++ nl
   ++ str_mul "=" 80 ++ nl
   ++ nl
   ++ status_text args ++ nl
   ++ nl
   ++ "YOUR THOUGHTS:" ++ nl
   ++ thoughts args ++ nl
   ++ nl
   ++ actions_block args
   ++ "NEXT:" ++ nl
   ++ next (guidance_of args) ++ nl
   ++ nl
   ++ str_mul "=" 80 ++ nl)%string.

(** The lines of a text, as [str.split] on the newline gives them. *)
Definition is_nl (c : ascii) : bool := Ascii.eqb c "010"%char.

Fixpoint split_lines (s : string) : list string :=
  match s with
  | EmptyString => [EmptyString]
  | String c s' =>
      if is_nl c then EmptyString :: split_lines s'
      else match split_lines s' with
           | l :: ls => String c l :: ls
           | [] => [String c EmptyString]
           end
  end.

Fixpoint has_nl (s : string) : bool :=
  match s with
  | EmptyString => false
  | String c s' => is_nl c || has_nl s'
  end.

(** The status marker of a report is its fifth line. *)
Definition status_line (out : string) : option string :=
  nth_error (split_lines out) 4.

(** ** The dispatch tables as the specification lists them *)

Inductive PlanningCase : Type :=
| PlanTerminal | PlanStep1 | PlanStep2 | PlanStep3 | PlanStep4 | PlanStep5Plus.

Inductive ReviewCase : Type :=
| RevStep1 | RevStep2 | RevStep3 | RevStep4 | RevTerminal | RevFallback.

(** The content of each case at a step position. *)
Definition planning_payload (c : PlanningCase) (step_number total_steps : Z)
  : GuidanceResult :=
  match c with
  | PlanTerminal => planning_final_verification
  | PlanStep1 => planning_step_1 (step_number + 1)
  | PlanStep2 => planning_step_2 (step_number + 1)
  | PlanStep3 => planning_step_3
  | PlanStep4 => planning_step_4 (step_number + 1)
  | PlanStep5Plus =>
      planning_steps_5_plus (step_number + 1) (total_steps - step_number)
  end.

Definition review_payload (c : ReviewCase) (step_number total_steps : Z)
  : GuidanceResult :=
  match c with
  | RevStep1 => review_step_1 (step_number + 1)
  | RevStep2 => review_step_2 (step_number + 1)
  | RevStep3 => review_step_3 (step_number + 1)
  | RevStep4 => review_step_4
  | RevTerminal => review_complete
  | RevFallback => review_fallback (step_number + 1)
  end.

(** The first action tells the cases of a table apart. *)
Definition first_action (g : GuidanceResult) : string :=
  hd EmptyString (actions g).

(** The case the specification's priority lists select (sections 4.1
    and 4.2): terminal first for planning, numbered steps first for
    review. *)
Definition spec_planning_case (step_number total_steps : Z) : PlanningCase :=
  if total_steps <=? step_number then PlanTerminal
  else if step_number =? 1 then PlanStep1
  else if step_number =? 2 then PlanStep2
  else if step_number =? 3 then PlanStep3
  else if step_number =? 4 then PlanStep4
  else PlanStep5Plus.

Definition spec_review_case (step_number total_steps : Z) : ReviewCase :=
  if step_number =? 1 then RevStep1
  else if step_number =? 2 then RevStep2
  else if step_number =? 3 then RevStep3
  else if step_number =? 4 then RevStep4
  else if total_steps <=? step_number then RevTerminal
  else RevFallback.

(** ** Reading the report line by line *)

(** The line one action is printed as: indented by two spaces, or blank
    for the empty string. *)
Definition action_line (action : string) : string :=
  if str_truthy action then ("  " ++ action)%string else EmptyString.

(** The heading [main] prints above the actions. *)
Definition actions_heading (args : Args) : string :=
  if step_number args >=? total_steps args
  then "FINAL CHECKLIST:" else "REQUIRED ACTIONS:".

(** Reading the actions back from the block the loop writes: drop the
    empty piece after the last newline, then the indentation. *)
Definition unindent_line (line : string) : string :=
  match line with
  | String _ (String _ rest) => rest
  | _ => EmptyString
  end.

Definition read_actions (block : string) : list string :=
  map unindent_line (removelast (split_lines block)).

(** Occurrence of a character, and of a text, as decidable tests. *)
Fixpoint has_char (c : ascii) (s : string) : bool :=
  match s with
  | EmptyString => false
  | String x s' => Ascii.eqb x c || has_char c s'
  end.

Fixpoint starts_with (p s : string) : bool :=
  match p, s with
  | EmptyString, _ => true
  | String x p', String y s' => Ascii.eqb x y && starts_with p' s'
  | String _ _, EmptyString => false
  end.

Fixpoint occursb (needle hay : string) : bool :=
  starts_with needle hay
  || match hay with
     | EmptyString => false
     | String _ hay' => occursb needle hay'
     end.

(** ** The selectors under the interpreter's conversion limit *)

(** CPython refuses to convert an [int] of more than
    [sys.int_info.default_max_str_digits] decimal digits to text, the
    sign not counted, and raises [ValueError]. *)
Definition max_str_digits : Z := 4300.

Definition within_cap (n : Z) : bool :=
  Z.abs n <? 10 ^ max_str_digits.

(** A call either returns a value or raises. *)
Inductive Raising (A : Type) : Type :=
| Value (a : A)
| ValueError.

Arguments Value {A} a.
Arguments ValueError {A}.

(** A [return] whose f-strings convert the integers [ns]: the dictionary
    is built only when every conversion succeeds, and then holds the
    text [str_of_int] gives. *)
Definition formatting (ns : list Z) (g : GuidanceResult)
  : Raising GuidanceResult :=
  if forallb within_cap ns then Value g else ValueError.

(** The selectors again, each [return] with the integers its f-strings
    convert: none for the literal-only results. *)
Definition get_planning_step_guidance_capped (step_number total_steps : Z)
  : Raising GuidanceResult :=
  let is_complete := step_number >=? total_steps in
  let next_step := step_number + 1 in
  if is_complete then formatting [] planning_final_verification
  else if step_number =? 1
  then formatting [next_step] (planning_step_1 next_step)
  else if step_number =? 2
  then formatting [next_step] (planning_step_2 next_step)
  else if step_number =? 3 then formatting [] planning_step_3
  else if step_number =? 4
  then formatting [next_step] (planning_step_4 next_step)
  else
    (* Steps 5+ *)
    let remaining := total_steps - step_number in
    formatting [next_step; remaining]
      (planning_steps_5_plus next_step remaining).

Definition get_review_step_guidance_capped (step_number total_steps : Z)
  : Raising GuidanceResult :=
  let is_complete := step_number >=? total_steps in
  let next_step := step_number + 1 in
  if step_number =? 1
  then formatting [next_step] (review_step_1 next_step)
  else if step_number =? 2
  then formatting [next_step] (review_step_2 next_step)
  else if step_number =? 3
  then formatting [next_step] (review_step_3 next_step)
  else if step_number =? 4 then formatting [] review_step_4
  else if is_complete then formatting [] review_complete
  else formatting [next_step] (review_fallback next_step).

(** * Properties *)

(** ** Strings *)

Section StringFacts.

Local Open Scope string_scope.

Lemma str_app_assoc (a b c : string) : (a ++ b) ++ c = a ++ b ++ c.
Proof.
  induction a as [|x a IH]; simpl; [reflexivity | now rewrite IH].
Qed.

Lemma str_app_nil_r (a : string) : a ++ EmptyString = a.
Proof.
  induction a as [|x a IH]; simpl; [reflexivity | now rewrite IH].
Qed.

Lemma occurs_in_intro (before needle after hay : string) :
  hay = before ++ needle ++ after -> occurs_in needle hay.
Proof. intros ->. now exists before, after. Qed.

Lemma has_nl_app (a b : string) :
  has_nl (a ++ b) = has_nl a || has_nl b.
Proof.
  induction a as [|x a IH]; simpl; [reflexivity|].
  now rewrite IH, orb_assoc.
Qed.

Lemma split_lines_cons (a b : string) :
  has_nl a = false -> split_lines (a ++ nl ++ b) = a :: split_lines b.
Proof.
  induction a as [|x a IH]; intros H.
  - reflexivity.
  - cbn [has_nl] in H. apply orb_false_iff in H as [Hx Ha].
    change (String x a ++ nl ++ b) with (String x (a ++ nl ++ b)).
    cbn [split_lines]. rewrite Hx, (IH Ha). reflexivity.
Qed.

Lemma split_lines_blank (b : string) :
  split_lines (nl ++ b) = EmptyString :: split_lines b.
Proof. reflexivity. Qed.

End StringFacts.

(** ** Decimal rendering of integers *)

Lemma has_nl_uint (d : Decimal.uint) :
  has_nl (NilEmpty.string_of_uint d) = false.
Proof. induction d; simpl; auto. Qed.

Lemma has_nl_str_of_int (n : Z) : has_nl (str_of_int n) = false.
Proof.
  unfold str_of_int.
  destruct (Z.to_int n) as [d|d]; simpl;
    destruct d; simpl; auto using has_nl_uint.
Qed.

(** Reading [str_of_int n] back as a decimal numeral gives [n]. *)
Lemma str_of_int_decimal (n : Z) :
  option_map Z.of_int (NilZero.int_of_string (str_of_int n)) = Some n.
Proof.
  unfold str_of_int.
  rewrite NilZero.isi.
  - simpl. now rewrite DecimalZ.of_to.
  - destruct n; simpl; try discriminate.
    intros [= H]. now apply (Unsigned.to_uint_nonnil p).
  - destruct n; simpl; try discriminate.
    intros [= H]. now apply (Unsigned.to_uint_nonnil p).
Qed.

(** ** The process monad and the report *)

Section ProcFacts.

Lemma bind_print {B : Type} (s : string) (k : Proc B) (st : Streams) :
  (print s ;; k) st = k (mkStreams (stdout st ++ s ++ nl)%string (stderr st)).
Proof. reflexivity. Qed.

Lemma bind_print_blank {B : Type} (k : Proc B) (st : Streams) :
  (print_blank ;; k) st = k (mkStreams (stdout st ++ nl)%string (stderr st)).
Proof. reflexivity. Qed.

Lemma bind_ret {B : Type} (k : Proc B) (st : Streams) :
  (ret tt ;; k) st = k st.
Proof. reflexivity. Qed.

Lemma bind_bind {A B C : Type}
      (m : Proc A) (k1 : A -> Proc B) (k2 : B -> Proc C) (st : Streams) :
  bind (bind m k1) k2 st = bind m (fun a => bind (k1 a) k2) st.
Proof.
  unfold bind. destruct (m st) as [[a|code] st']; reflexivity.
Qed.

Lemma if_print (b : bool) (x y : string) :
  (if b then print x else print y) = print (if b then x else y).
Proof. now destruct b. Qed.

(** The loop over the actions writes [render_actions] and returns. *)
Lemma for_each_render (l : list string) (st : Streams) :
  for_each l (fun action =>
                if str_truthy action
                then print ("  " ++ action)%string
                else print_blank) st
  = (Returned tt, mkStreams (stdout st ++ render_actions l)%string (stderr st)).
Proof.
  revert st. induction l as [|a l IH]; intros st.
  - destruct st as [o e]. cbn. now rewrite str_app_nil_r.
  - cbn [for_each render_actions]. unfold bind, render_action.
    destruct (str_truthy a); cbn [print print_blank];
      rewrite IH; cbn [stdout stderr];
      now rewrite !str_app_assoc.
Qed.

Lemma bind_for_each {B : Type} (l : list string) (k : Proc B)
      (st : Streams) :
  (for_each l (fun action =>
                 if str_truthy action
                 then print ("  " ++ action)%string
                 else print_blank) ;; k) st
  = k (mkStreams (stdout st ++ render_actions l)%string (stderr st)).
Proof. unfold bind. now rewrite for_each_render. Qed.

(** Run the [print]s at the head of a sequence. *)
Ltac step_prints :=
  repeat (rewrite bind_print || rewrite bind_print_blank);
  cbn [stdout stderr].

(** From one on, [main] returns after writing exactly [report_text]. *)
Lemma main_valid (args : Args) (st : Streams) :
  1 <= step_number args -> 1 <= total_steps args ->
  main args st
  = (Returned tt,
     mkStreams (stdout st ++ report_text args)%string (stderr st)).
Proof.
  intros Hs Ht. unfold main.
  replace ((step_number args <? 1) || (total_steps args <? 1))
    with false
    by (symmetry; apply orb_false_iff; split; apply Z.ltb_ge; lia).
  unfold when at 1. rewrite bind_ret.
  replace (if Phase_eqb (phase args) planning
           then (get_planning_step_guidance
                   (step_number args) (total_steps args), "PLANNING")
           else (get_review_step_guidance
                   (step_number args) (total_steps args), "REVIEW"))
    with (guidance_of args, phase_label_of (phase args))
    by (unfold guidance_of; destruct (phase args); reflexivity).
  cbv beta iota. step_prints.
  unfold report_text, actions_block, when.
  destruct (list_truthy (actions (guidance_of args))).
  - rewrite bind_bind, if_print. step_prints.
    rewrite bind_bind, bind_for_each. step_prints.
    unfold print, title_line, status_text. cbn [stdout stderr].
    now rewrite !str_app_assoc.
  - rewrite bind_ret. step_prints.
    unfold print, title_line, status_text. cbn [stdout stderr].
    now rewrite !str_app_assoc.
Qed.

(** Below one, either number stops the program before any report. *)
Lemma main_invalid (args : Args) (st : Streams) :
  step_number args < 1 \/ total_steps args < 1 ->
  main args st
  = (SystemExit 1,
     mkStreams (stdout st)
       (stderr st
        ++ "Error: step-number and total-steps must be >= 1" ++ nl)%string).
Proof.
  intros H. unfold main.
  replace ((step_number args <? 1) || (total_steps args <? 1))
    with true
    by (symmetry; apply orb_true_iff;
        destruct H; [left | right]; apply Z.ltb_lt; lia).
  reflexivity.
Qed.

End ProcFacts.

Lemma run_main_valid (args : Args) :
  1 <= step_number args -> 1 <= total_steps args ->
  run_main args = (0, mkStreams (report_text args) EmptyString).
Proof.
  intros Hs Ht. unfold run_main. now rewrite main_valid.
Qed.

Lemma run_main_invalid (args : Args) :
  step_number args < 1 \/ total_steps args < 1 ->
  run_main args
  = (1, mkStreams EmptyString
          ("Error: step-number and total-steps must be >= 1" ++ nl)%string).
Proof.
  intros H. unfold run_main. now rewrite main_invalid.
Qed.

Lemma report_text_nonempty (args : Args) : report_text args <> EmptyString.
Proof. unfold report_text. simpl (str_mul "=" 80). discriminate. Qed.

(** The fifth line of the report is the status line. *)
Lemma status_line_report (args : Args) :
  status_line (report_text args) = Some (status_text args).
Proof.
  unfold status_line, report_text.
  rewrite split_lines_cons by reflexivity.
  rewrite split_lines_cons.
  2:{ unfold title_line. rewrite !has_nl_app, !has_nl_str_of_int.
      now destruct (phase args). }
  rewrite split_lines_cons by reflexivity.
  rewrite split_lines_blank.
  rewrite split_lines_cons.
  2:{ unfold status_text.
      now destruct (step_number args >=? total_steps args). }
  reflexivity.
Qed.

Lemma status_text_complete (args : Args) :
  status_text args = "STATUS: phase_complete"
  <-> total_steps args <= step_number args.
Proof.
  unfold status_text. rewrite Z.geb_leb.
  destruct (Z.leb_spec (total_steps args) (step_number args));
    split; intros H'; try lia; try reflexivity; discriminate H'.
Qed.

Lemma status_text_in_progress (args : Args) :
  status_text args = "STATUS: in_progress"
  <-> step_number args < total_steps args.
Proof.
  unfold status_text. rewrite Z.geb_leb.
  destruct (Z.leb_spec (total_steps args) (step_number args));
    split; intros H'; try lia; try reflexivity; discriminate H'.
Qed.

(** ** The selectors and the specification's tables *)

Lemma planning_refines_spec (s t : Z) :
  get_planning_step_guidance s t
  = planning_payload (spec_planning_case s t) s t.
Proof.
  unfold get_planning_step_guidance, spec_planning_case.
  rewrite Z.geb_leb.
  destruct (t <=? s); [reflexivity|].
  repeat match goal with
         | |- context [?a =? ?b] => destruct (a =? b); [reflexivity|]
         end.
  reflexivity.
Qed.

Lemma review_refines_spec (s t : Z) :
  get_review_step_guidance s t
  = review_payload (spec_review_case s t) s t.
Proof.
  unfold get_review_step_guidance, spec_review_case.
  rewrite Z.geb_leb.
  repeat match goal with
         | |- context [?a =? ?b] => destruct (a =? b); [reflexivity|]
         end.
  destruct (t <=? s); reflexivity.
Qed.

Lemma planning_payload_inj (s t : Z) (c c' : PlanningCase) :
  planning_payload c s t = planning_payload c' s t -> c = c'.
Proof.
  intros H. apply (f_equal first_action) in H.
  destruct c, c'; try reflexivity; cbn in H; discriminate H.
Qed.

Lemma review_payload_inj (s t : Z) (c c' : ReviewCase) :
  review_payload c s t = review_payload c' s t -> c = c'.
Proof.
  intros H. apply (f_equal first_action) in H.
  destruct c, c'; try reflexivity; cbn in H; discriminate H.
Qed.

(** ** The planning selector *)

(** C1. In the planning phase, at every step position with
    [step_number >= 1], [total_steps >= 1] and
    [step_number >= total_steps], the selector returns the final
    verification content, and the content of no other case: the terminal
    check comes before every numbered step.  At [total_steps = 1], step 1
    is such a position. *)
Theorem planning_terminal_first (s t : Z) :
  1 <= s -> 1 <= t -> t <= s ->
  get_planning_step_guidance s t = planning_final_verification
  /\ (forall c : PlanningCase,
         c <> PlanTerminal ->
         get_planning_step_guidance s t <> planning_payload c s t).
Proof.
  intros _ _ Hts.
  assert (E : get_planning_step_guidance s t = planning_final_verification).
  { unfold get_planning_step_guidance.
    rewrite Z.geb_leb. now apply Z.leb_le in Hts as ->. }
  split; [exact E|].
  intros c Hc Heq. apply Hc.
  apply (planning_payload_inj s t). now rewrite <- Heq.
Qed.

Lemma planning_terminal_first_witness :
  get_planning_step_guidance 1 1 = planning_final_verification
  /\ (forall c : PlanningCase,
         c <> PlanTerminal ->
         get_planning_step_guidance 1 1 <> planning_payload c 1 1).
Proof.
  apply (planning_terminal_first 1 1); lia.
Defined.

(** C5. In the planning phase, for [step_number >= 5] and
    [step_number < total_steps], the selector returns the generic
    steps-5+ content, and its [next] text contains the decimal numeral
    of [total_steps - step_number]. *)
Theorem planning_steps_5_plus_remaining (s t : Z) :
  5 <= s -> s < t ->
  get_planning_step_guidance s t = planning_steps_5_plus (s + 1) (t - s)
  /\ occurs_in (str_of_int (t - s)) (next (get_planning_step_guidance s t))
  /\ option_map Z.of_int (NilZero.int_of_string (str_of_int (t - s)))
     = Some (t - s).
Proof.
  intros Hs Hlt.
  assert (E : get_planning_step_guidance s t
              = planning_steps_5_plus (s + 1) (t - s)).
  { unfold get_planning_step_guidance.
    rewrite Z.geb_leb.
    replace (t <=? s) with false by (symmetry; apply Z.leb_gt; lia).
    repeat match goal with
           | |- context [s =? ?b] =>
               replace (s =? b) with false by (symmetry; apply Z.eqb_neq; lia)
           end.
    reflexivity. }
  split; [exact E|]. split; [|apply str_of_int_decimal].
  rewrite E. cbn [next planning_steps_5_plus].
  exists ("Invoke step " ++ str_of_int (s + 1) ++ ". ")%string,
    " step(s) remaining until completion. (Or invoke earlier step if backtracking.)".
  now rewrite !str_app_assoc.
Qed.

Lemma planning_steps_5_plus_remaining_witness :
  get_planning_step_guidance 7 10 = planning_steps_5_plus (7 + 1) (10 - 7)
  /\ occurs_in (str_of_int (10 - 7)) (next (get_planning_step_guidance 7 10))
  /\ option_map Z.of_int (NilZero.int_of_string (str_of_int (10 - 7)))
     = Some (10 - 7).
Proof.
  apply (planning_steps_5_plus_remaining 7 10); lia.
Defined.

(** ** The review selector *)

(** C2. In the review phase, for [step_number] in 1..4 and every
    [total_steps >= 1], also [total_steps <= step_number], the selector
    returns the delegation content of that step and not the completion
    content. *)
Theorem review_numbered_steps_first (s t : Z) :
  1 <= s <= 4 -> 1 <= t ->
  (s = 1 -> get_review_step_guidance s t = review_step_1 2)
  /\ (s = 2 -> get_review_step_guidance s t = review_step_2 3)
  /\ (s = 3 -> get_review_step_guidance s t = review_step_3 4)
  /\ (s = 4 -> get_review_step_guidance s t = review_step_4)
  /\ get_review_step_guidance s t <> review_complete
  /\ get_review_step_guidance s t <> review_fallback (s + 1).
Proof.
  intros Hs _.
  assert (Hcase : s = 1 \/ s = 2 \/ s = 3 \/ s = 4) by lia.
  repeat split; try (intros ->; reflexivity).
  - destruct Hcase as [ -> | [ -> | [ -> | -> ] ] ]; intros H;
      apply (f_equal first_action) in H; discriminate H.
  - destruct Hcase as [ -> | [ -> | [ -> | -> ] ] ]; intros H;
      apply (f_equal first_action) in H; discriminate H.
Qed.

Lemma review_numbered_steps_first_witness :
  (1 = 1 -> get_review_step_guidance 1 1 = review_step_1 2)
  /\ (1 = 2 -> get_review_step_guidance 1 1 = review_step_2 3)
  /\ (1 = 3 -> get_review_step_guidance 1 1 = review_step_3 4)
  /\ (1 = 4 -> get_review_step_guidance 1 1 = review_step_4)
  /\ get_review_step_guidance 1 1 <> review_complete
  /\ get_review_step_guidance 1 1 <> review_fallback (1 + 1).
Proof.
  apply (review_numbered_steps_first 1 1); lia.
Defined.

(** C4. In the review phase, for [step_number >= total_steps] and
    [step_number > 4], the selector returns the completion content, whose
    [next] text announces that the plan is approved for execution. *)
Theorem review_terminal_after_step_4 (s t : Z) :
  t <= s -> 4 < s ->
  get_review_step_guidance s t = review_complete
  /\ next (get_review_step_guidance s t)
     = ("PLAN APPROVED." ++ nl ++ nl
        ++ "Ready for implementation via /plan-execution command." ++ nl
        ++ "Pass the plan file path as argument.")%string.
Proof.
  intros Hts Hs.
  assert (E : get_review_step_guidance s t = review_complete).
  { unfold get_review_step_guidance.
    rewrite Z.geb_leb.
    repeat match goal with
           | |- context [s =? ?b] =>
               replace (s =? b) with false by (symmetry; apply Z.eqb_neq; lia)
           end.
    now apply Z.leb_le in Hts as ->. }
  split; [exact E | now rewrite E].
Qed.

Lemma review_terminal_after_step_4_witness :
  get_review_step_guidance 5 4 = review_complete
  /\ next (get_review_step_guidance 5 4)
     = ("PLAN APPROVED." ++ nl ++ nl
        ++ "Ready for implementation via /plan-execution command." ++ nl
        ++ "Pass the plan file path as argument.")%string.
Proof.
  apply (review_terminal_after_step_4 5 4); lia.
Defined.

(** ** Both selectors *)

(** The cap is far above the step numbers the branches compare with. *)
Lemma cap_above_five : 5 < 10 ^ max_str_digits.
Proof.
  assert (Hpos : 0 <= max_str_digits) by (unfold max_str_digits; lia).
  assert (Hbig : 5 < max_str_digits) by (unfold max_str_digits; lia).
  pose proof (Z.pow_gt_lin_r 10 max_str_digits ltac:(lia) Hpos) as H.
  lia.
Qed.

Lemma within_cap_small (n : Z) : Z.abs n <= 5 -> within_cap n = true.
Proof.
  intros H. unfold within_cap. apply Z.ltb_lt.
  pose proof cap_above_five. lia.
Qed.

Lemma within_cap_iff (n : Z) :
  within_cap n = true <-> Z.abs n < 10 ^ max_str_digits.
Proof. unfold within_cap. apply Z.ltb_lt. Qed.

(** When a capped selector returns, it returns what the selector does. *)
Lemma formatting_value (ns : list Z) (g : GuidanceResult) :
  forallb within_cap ns = true -> formatting ns g = Value g.
Proof. intros H. unfold formatting. now rewrite H. Qed.

Lemma planning_capped_value (s t : Z) :
  (s < t -> within_cap (s + 1) = true /\ within_cap (t - s) = true) ->
  get_planning_step_guidance_capped s t
  = Value (get_planning_step_guidance s t).
Proof.
  intros H.
  unfold get_planning_step_guidance_capped, get_planning_step_guidance.
  rewrite Z.geb_leb.
  destruct (Z.leb_spec t s); [reflexivity|].
  destruct (H ltac:(assumption)) as [Hn Hr].
  repeat match goal with
         | |- context [s =? ?k] =>
             destruct (s =? k);
             [apply formatting_value; cbn [forallb];
              now rewrite ?Hn, ?Hr|]
         end.
  apply formatting_value. cbn [forallb]. now rewrite Hn, Hr.
Qed.

Lemma review_capped_value (s t : Z) :
  (s < t -> within_cap (s + 1) = true) ->
  get_review_step_guidance_capped s t
  = Value (get_review_step_guidance s t).
Proof.
  intros H.
  unfold get_review_step_guidance_capped, get_review_step_guidance.
  rewrite Z.geb_leb.
  repeat match goal with
         | |- context [s =? ?k] =>
             destruct (Z.eqb_spec s k);
             [subst s; apply formatting_value; cbn [forallb];
              now rewrite ?within_cap_small by (cbn; lia)|]
         end.
  destruct (Z.leb_spec t s); [reflexivity|].
  apply formatting_value. cbn [forallb]. now rewrite (H ltac:(assumption)).
Qed.




(** C6. In both phases and at every step position, the [next] text of
    the result is not empty. *)
Theorem next_never_empty (s t : Z) :
  next (get_planning_step_guidance s t) <> EmptyString
  /\ next (get_review_step_guidance s t) <> EmptyString.
Proof.
  rewrite planning_refines_spec, review_refines_spec.
  split.
  - destruct (spec_planning_case s t); discriminate.
  - destruct (spec_review_case s t); discriminate.
Qed.

(** C10. In both phases and at every step position, the [actions] list
    of the result is not empty. *)
Theorem actions_never_empty (s t : Z) :
  actions (get_planning_step_guidance s t) <> []
  /\ actions (get_review_step_guidance s t) <> [].
Proof.
  rewrite planning_refines_spec, review_refines_spec.
  split.
  - destruct (spec_planning_case s t); discriminate.
  - destruct (spec_review_case s t); discriminate.
Qed.

(** ** The entry point *)

(** C7. With [step_number < 1] or [total_steps < 1] the program writes
    the error message to standard error, writes nothing to standard
    output and ends with a status other than zero; at every other pair of
    integers it ends with status zero after writing the report to
    standard output. *)
Theorem main_exit_status (args : Args) :
  (step_number args < 1 \/ total_steps args < 1 ->
   fst (run_main args) <> 0
   /\ stderr (snd (run_main args))
      = ("Error: step-number and total-steps must be >= 1" ++ nl)%string
   /\ stdout (snd (run_main args)) = EmptyString)
  /\ (~ (step_number args < 1 \/ total_steps args < 1) ->
      fst (run_main args) = 0
      /\ stdout (snd (run_main args)) = report_text args
      /\ stdout (snd (run_main args)) <> EmptyString
      /\ stderr (snd (run_main args)) = EmptyString).
Proof.
  split.
  - intros H. rewrite (run_main_invalid args H). cbn.
    repeat split. discriminate.
  - intros H. rewrite run_main_valid by lia. cbn.
    repeat split. apply report_text_nonempty.
Qed.

Lemma main_exit_status_witness :
  (fst (run_main (mkArgs planning 0 3 "notes")) <> 0
   /\ stderr (snd (run_main (mkArgs planning 0 3 "notes")))
      = ("Error: step-number and total-steps must be >= 1" ++ nl)%string
   /\ stdout (snd (run_main (mkArgs planning 0 3 "notes"))) = EmptyString)
  /\ (fst (run_main (mkArgs review 2 4 "notes")) = 0
      /\ stdout (snd (run_main (mkArgs review 2 4 "notes")))
         = report_text (mkArgs review 2 4 "notes")
      /\ stdout (snd (run_main (mkArgs review 2 4 "notes"))) <> EmptyString
      /\ stderr (snd (run_main (mkArgs review 2 4 "notes"))) = EmptyString).
Proof.
  split.
  - apply (proj1 (main_exit_status (mkArgs planning 0 3 "notes"))).
    left. simpl. lia.
  - apply (proj2 (main_exit_status (mkArgs review 2 4 "notes"))).
    simpl. lia.
Defined.

(** C8. The status line of the report reads [phase_complete] exactly
    when [step_number >= total_steps] and [in_progress] otherwise; it is
    the same for both phases and whatever the notes.  For the review
    phase at step 4 of 4 it reads [phase_complete] although the actions
    listed are those of the quality-reviewer delegation. *)
Theorem status_marker (ph : Phase) (s t : Z) (th : string) :
  1 <= s -> 1 <= t ->
  let out := fun p n => stdout (snd (run_main (mkArgs p s t n))) in
  (status_line (out ph th) = Some "STATUS: phase_complete" <-> t <= s)
  /\ (status_line (out ph th) = Some "STATUS: in_progress" <-> s < t)
  /\ (forall (ph' : Phase) (th' : string),
         status_line (out ph' th') = status_line (out ph th))
  /\ (let out44 := stdout (snd (run_main (mkArgs review 4 4 th))) in
      status_line out44 = Some "STATUS: phase_complete"
      /\ get_review_step_guidance 4 4 = review_step_4
      /\ occurs_in ("FINAL CHECKLIST:" ++ nl
                    ++ render_actions (actions review_step_4) ++ nl
                    ++ "NEXT:" ++ nl ++ next review_step_4 ++ nl)
           out44).
Proof.
  intros Hs Ht out.
  assert (Hout : forall p n,
             status_line (out p n) = Some (status_text (mkArgs p s t n))).
  { intros p n. unfold out. rewrite run_main_valid by assumption.
    apply status_line_report. }
  split; [|split; [|split; [|cbv zeta; split; [|split]]]].
  - rewrite Hout. split; intros H.
    + apply (status_text_complete (mkArgs ph s t th)). congruence.
    + f_equal. now apply (status_text_complete (mkArgs ph s t th)).
  - rewrite Hout. split; intros H.
    + apply (status_text_in_progress (mkArgs ph s t th)). congruence.
    + f_equal. now apply (status_text_in_progress (mkArgs ph s t th)).
  - intros ph' th'. now rewrite !Hout.
  - rewrite run_main_valid by (cbn; lia). cbn [snd stdout].
    now rewrite status_line_report.
  - reflexivity.
  - rewrite run_main_valid by (cbn; lia). cbn [snd stdout].
    unfold report_text.
    exists (str_mul "=" 80 ++ nl
            ++ title_line (mkArgs review 4 4 th) ++ nl
            ++ str_mul "=" 80 ++ nl ++ nl
            ++ status_text (mkArgs review 4 4 th) ++ nl ++ nl
            ++ "YOUR THOUGHTS:" ++ nl ++ th ++ nl ++ nl)%string,
      (nl ++ str_mul "=" 80 ++ nl)%string.
    change (actions_block (mkArgs review 4 4 th))
      with ("FINAL CHECKLIST:" ++ nl
            ++ render_actions (actions review_step_4) ++ nl)%string.
    change (guidance_of (mkArgs review 4 4 th)) with review_step_4.
    cbn [thoughts].
    now rewrite !str_app_assoc.
Qed.

Lemma status_marker_witness :
  let out := fun p n => stdout (snd (run_main (mkArgs p 4 4 n))) in
  (status_line (out review "notes") = Some "STATUS: phase_complete" <-> 4 <= 4)
  /\ (status_line (out review "notes") = Some "STATUS: in_progress" <-> 4 < 4)
  /\ (forall (ph' : Phase) (th' : string),
         status_line (out ph' th') = status_line (out review "notes"))
  /\ (let out44 := stdout (snd (run_main (mkArgs review 4 4 "notes"))) in
      status_line out44 = Some "STATUS: phase_complete"
      /\ get_review_step_guidance 4 4 = review_step_4
      /\ occurs_in ("FINAL CHECKLIST:" ++ nl
                    ++ render_actions (actions review_step_4) ++ nl
                    ++ "NEXT:" ++ nl ++ next review_step_4 ++ nl)
           out44).
Proof.
  apply (status_marker review 4 4 "notes"); lia.
Defined.

(** C9. The notes given as [--thoughts] appear unchanged in the report
    on standard output, on the lines after the heading [YOUR THOUGHTS:],
    whatever characters they hold. *)
Theorem thoughts_echoed (args : Args) :
  1 <= step_number args -> 1 <= total_steps args ->
  occurs_in (thoughts args) (stdout (snd (run_main args)))
  /\ occurs_in ("YOUR THOUGHTS:" ++ nl ++ thoughts args ++ nl)
       (stdout (snd (run_main args))).
Proof.
  intros Hs Ht. rewrite run_main_valid by assumption. cbn [snd stdout].
  unfold report_text. split.
  - exists (str_mul "=" 80 ++ nl ++ title_line args ++ nl
            ++ str_mul "=" 80 ++ nl ++ nl ++ status_text args ++ nl ++ nl
            ++ "YOUR THOUGHTS:" ++ nl)%string,
      (nl ++ nl ++ actions_block args ++ "NEXT:" ++ nl
       ++ next (guidance_of args) ++ nl ++ nl ++ str_mul "=" 80 ++ nl)%string.
    now rewrite !str_app_assoc.
  - exists (str_mul "=" 80 ++ nl ++ title_line args ++ nl
            ++ str_mul "=" 80 ++ nl ++ nl ++ status_text args ++ nl
            ++ nl)%string,
      (nl ++ actions_block args ++ "NEXT:" ++ nl
       ++ next (guidance_of args) ++ nl ++ nl ++ str_mul "=" 80 ++ nl)%string.
    now rewrite !str_app_assoc.
Qed.

Lemma thoughts_echoed_witness :
  let notes := ("Design  auth" ++ nl ++ "  50% of " ++ dquote ++ "$HOME"
                ++ dquote ++ " " ++ backslash ++ "n")%string in
  occurs_in notes (stdout (snd (run_main (mkArgs planning 1 4 notes))))
  /\ occurs_in ("YOUR THOUGHTS:" ++ nl ++ notes ++ nl)
       (stdout (snd (run_main (mkArgs planning 1 4 notes)))).
Proof.
  intros notes.
  apply (thoughts_echoed (mkArgs planning 1 4 notes)); simpl; lia.
Defined.

(** ** Concrete runs *)

Example str_of_int_samples :
  str_of_int 0 = "0" /\ str_of_int 42 = "42" /\ str_of_int (-7) = "-7".
Proof. repeat split. Qed.

Example planning_step_1_of_4 :
  first_action (get_planning_step_guidance 1 4)
  = "You are an expert architect. Proceed with confidence."
  /\ next (get_planning_step_guidance 1 4)
     = "Invoke step 2 with your context analysis and approach options."
  /\ status_line (stdout (snd (run_main (mkArgs planning 1 4 "Design auth"))))
     = Some "STATUS: in_progress".
Proof. repeat split. Qed.

Example planning_step_4_of_4 :
  get_planning_step_guidance 4 4 = planning_final_verification
  /\ status_line (stdout (snd (run_main (mkArgs planning 4 4 "Done"))))
     = Some "STATUS: phase_complete".
Proof. repeat split. Qed.

Example planning_step_6_of_9 :
  next (get_planning_step_guidance 6 9)
  = "Invoke step 7. 3 step(s) remaining until completion. (Or invoke earlier step if backtracking.)".
Proof. reflexivity. Qed.

Example review_step_6_of_9_falls_back :
  get_review_step_guidance 6 9 = review_fallback 7
  /\ next (get_review_step_guidance 6 9) = "Invoke step 7 when ready.".
Proof. repeat split. Qed.

Example zero_step_is_rejected :
  run_main (mkArgs planning 0 4 "notes")
  = (1, mkStreams EmptyString
          ("Error: step-number and total-steps must be >= 1" ++ nl)%string).
Proof. reflexivity. Qed.

Example review_fallback_report :
  stdout (snd (run_main (mkArgs review 6 9 "notes")))
  = (str_mul "=" 80 ++ nl
     ++ "PLANNER - REVIEW PHASE - Step 6 of 9" ++ nl
     ++ str_mul "=" 80 ++ nl
     ++ nl
     ++ "STATUS: in_progress" ++ nl
     ++ nl
     ++ "YOUR THOUGHTS:" ++ nl
     ++ "notes" ++ nl
     ++ nl
     ++ "REQUIRED ACTIONS:" ++ nl
     ++ "  Continue review process as needed." ++ nl
     ++ nl
     ++ "NEXT:" ++ nl
     ++ "Invoke step 7 when ready." ++ nl
     ++ nl
     ++ str_mul "=" 80 ++ nl)%string.
Proof. reflexivity. Qed.


(** * Further properties of the selectors and of the report *)

(** ** More on strings *)

Lemma str_length_app (a b : string) :
  String.length (a ++ b) = (String.length a + String.length b)%nat.
Proof.
  induction a as [|x a IH]; simpl; [reflexivity | now rewrite IH].
Qed.

Lemma str_app_inv_head (a b c : string) :
  (a ++ b)%string = (a ++ c)%string -> b = c.
Proof.
  induction a as [|x a IH]; simpl; intros H; [exact H|].
  injection H as H. now apply IH.
Qed.

Lemma str_app_inv_tail (a b c : string) :
  (a ++ c)%string = (b ++ c)%string -> a = b.
Proof.
  revert b. induction a as [|x a IH]; intros [|y b] H.
  - reflexivity.
  - apply (f_equal String.length) in H.
    cbn [append String.length] in H. rewrite str_length_app in H. lia.
  - apply (f_equal String.length) in H.
    cbn [append String.length] in H. rewrite str_length_app in H. lia.
  - cbn [append] in H. injection H as Hx H. subst y.
    f_equal. now apply IH.
Qed.

(** Two texts cut at the first occurrence of a character agree piece by
    piece. *)
Lemma str_cut_at_char (c : ascii) (a a' x x' : string) :
  has_char c a = false -> has_char c a' = false ->
  (a ++ String c x)%string = (a' ++ String c x')%string ->
  a = a' /\ x = x'.
Proof.
  revert a'. induction a as [|y a IH]; intros [|y' a'] Ha Ha' H.
  - cbn in H. injection H as H. now split.
  - cbn [append] in H. injection H as Hc _.
    cbn [has_char] in Ha'. apply orb_false_iff in Ha' as [Hy _].
    subst y'. now rewrite Ascii.eqb_refl in Hy.
  - cbn [append] in H. injection H as Hc _.
    cbn [has_char] in Ha. apply orb_false_iff in Ha as [Hy _].
    subst y. now rewrite Ascii.eqb_refl in Hy.
  - cbn [append] in H. injection H as Hy H. subst y'.
    cbn [has_char] in Ha, Ha'.
    apply orb_false_iff in Ha as [_ Ha].
    apply orb_false_iff in Ha' as [_ Ha'].
    destruct (IH a' Ha Ha' H) as [-> ->]. now split.
Qed.

Lemma starts_with_sound (p s : string) :
  starts_with p s = true -> exists rest : string, s = (p ++ rest)%string.
Proof.
  revert s. induction p as [|x p IH]; intros s H.
  - now exists s.
  - destruct s as [|y s]; [discriminate H|].
    cbn [starts_with] in H. apply andb_true_iff in H as [Hxy Hp].
    apply Ascii.eqb_eq in Hxy as ->.
    destruct (IH s Hp) as [rest ->]. now exists rest.
Qed.

Lemma occursb_sound (needle hay : string) :
  occursb needle hay = true -> occurs_in needle hay.
Proof.
  induction hay as [|y hay IH]; cbn [occursb]; intros H.
  - rewrite orb_false_r in H.
    destruct (starts_with_sound _ _ H) as [rest E].
    now exists EmptyString, rest.
  - apply orb_true_iff in H as [H|H].
    + destruct (starts_with_sound _ _ H) as [rest E].
      now exists EmptyString, rest.
    + destruct (IH H) as (before & after & ->).
      now exists (String y before), after.
Qed.

(** ** More on lines *)

Lemma split_lines_nonempty (s : string) : split_lines s <> [].
Proof.
  destruct s as [|c s]; cbn [split_lines]; [discriminate|].
  destruct (is_nl c); [discriminate|].
  destruct (split_lines s); discriminate.
Qed.

(** Splitting distributes over a newline between two texts. *)
Lemma split_lines_app (a b : string) :
  split_lines (a ++ nl ++ b) = split_lines a ++ split_lines b.
Proof.
  induction a as [|x a IH].
  - reflexivity.
  - change (String x a ++ nl ++ b)%string with (String x (a ++ nl ++ b)).
    cbn [split_lines]. rewrite IH.
    destruct (is_nl x); [reflexivity|].
    destruct (split_lines a) as [|l ls] eqn:E; [|reflexivity].
    now destruct (split_lines_nonempty a).
Qed.

Lemma split_lines_single (a : string) :
  has_nl a = false -> split_lines a = [a].
Proof.
  induction a as [|x a IH]; intros H; [reflexivity|].
  cbn [has_nl] in H. apply orb_false_iff in H as [Hx Ha].
  cbn [split_lines]. now rewrite Hx, (IH Ha).
Qed.

Lemma has_nl_action_line (a : string) :
  has_nl a = false -> has_nl (action_line a) = false.
Proof.
  intros H. unfold action_line. now destruct (str_truthy a).
Qed.

Lemma render_action_line (a : string) :
  render_action a = (action_line a ++ nl)%string.
Proof.
  unfold render_action, action_line. now destruct (str_truthy a).
Qed.

(** The loop writes one line per action, then nothing. *)
Lemma split_lines_render_actions (l : list string) :
  Forall (fun a => has_nl a = false) l ->
  split_lines (render_actions l) = map action_line l ++ [EmptyString].
Proof.
  induction 1 as [|a l Ha _ IH]; [reflexivity|].
  cbn [render_actions map app].
  rewrite render_action_line, str_app_assoc.
  rewrite split_lines_cons by now apply has_nl_action_line.
  now rewrite IH.
Qed.

Lemma unindent_action_line (a : string) : unindent_line (action_line a) = a.
Proof. now destruct a. Qed.

(** ** Which case a selector returns *)

Lemma planning_case_iff (s t : Z) (c : PlanningCase) :
  get_planning_step_guidance s t = planning_payload c s t
  <-> spec_planning_case s t = c.
Proof.
  rewrite planning_refines_spec. split.
  - apply planning_payload_inj.
  - now intros ->.
Qed.

Lemma review_case_iff (s t : Z) (c : ReviewCase) :
  get_review_step_guidance s t = review_payload c s t
  <-> spec_review_case s t = c.
Proof.
  rewrite review_refines_spec. split.
  - apply review_payload_inj.
  - now intros ->.
Qed.

(** Decide every test of a dispatch chain on [s] and [t]. *)
Ltac decide_chain s t :=
  destruct (Z.leb_spec t s);
  repeat match goal with
         | |- context [s =? ?k] => destruct (Z.eqb_spec s k)
         end;
  split; intros;
  try discriminate; try reflexivity; try lia.

(** X1. The planning selector returns each of its six contents exactly
    on the step positions of that case: the final verification for
    [t <= s]; the content of step 1, 2, 3 or 4 for that [s] with [s < t];
    the catch-all for every other [s] with [s < t], which includes step
    numbers below 1. *)
Theorem planning_dispatch (s t : Z) :
  (get_planning_step_guidance s t = planning_final_verification
   <-> t <= s)
  /\ (get_planning_step_guidance s t = planning_step_1 (s + 1)
      <-> s = 1 /\ s < t)
  /\ (get_planning_step_guidance s t = planning_step_2 (s + 1)
      <-> s = 2 /\ s < t)
  /\ (get_planning_step_guidance s t = planning_step_3
      <-> s = 3 /\ s < t)
  /\ (get_planning_step_guidance s t = planning_step_4 (s + 1)
      <-> s = 4 /\ s < t)
  /\ (get_planning_step_guidance s t
      = planning_steps_5_plus (s + 1) (t - s)
      <-> (s < 1 \/ 5 <= s) /\ s < t).
Proof.
  split; [|split; [|split; [|split; [|split]]]].
  - rewrite (planning_case_iff s t PlanTerminal).
    unfold spec_planning_case. decide_chain s t.
  - rewrite (planning_case_iff s t PlanStep1).
    unfold spec_planning_case. decide_chain s t.
  - rewrite (planning_case_iff s t PlanStep2).
    unfold spec_planning_case. decide_chain s t.
  - rewrite (planning_case_iff s t PlanStep3).
    unfold spec_planning_case. decide_chain s t.
  - rewrite (planning_case_iff s t PlanStep4).
    unfold spec_planning_case. decide_chain s t.
  - rewrite (planning_case_iff s t PlanStep5Plus).
    unfold spec_planning_case. decide_chain s t.
Qed.

(** X2. The review selector returns the delegation of step 1, 2, 3 or 4
    exactly for that [s], whatever [t]; the completion content exactly
    for [s] outside 1..4 with [t <= s]; the generic fallback exactly for
    [s] outside 1..4 with [s < t]. *)
Theorem review_dispatch (s t : Z) :
  (get_review_step_guidance s t = review_step_1 (s + 1) <-> s = 1)
  /\ (get_review_step_guidance s t = review_step_2 (s + 1) <-> s = 2)
  /\ (get_review_step_guidance s t = review_step_3 (s + 1) <-> s = 3)
  /\ (get_review_step_guidance s t = review_step_4 <-> s = 4)
  /\ (get_review_step_guidance s t = review_complete
      <-> (s < 1 \/ 4 < s) /\ t <= s)
  /\ (get_review_step_guidance s t = review_fallback (s + 1)
      <-> (s < 1 \/ 4 < s) /\ s < t).
Proof.
  split; [|split; [|split; [|split; [|split]]]].
  - rewrite (review_case_iff s t RevStep1).
    unfold spec_review_case. decide_chain s t.
  - rewrite (review_case_iff s t RevStep2).
    unfold spec_review_case. decide_chain s t.
  - rewrite (review_case_iff s t RevStep3).
    unfold spec_review_case. decide_chain s t.
  - rewrite (review_case_iff s t RevStep4).
    unfold spec_review_case. decide_chain s t.
  - rewrite (review_case_iff s t RevTerminal).
    unfold spec_review_case. decide_chain s t.
  - rewrite (review_case_iff s t RevFallback).
    unfold spec_review_case. decide_chain s t.
Qed.

(** X3. A review declared with at most five steps never reaches the
    generic fallback, and shows the completion content from step 5 on
    and not before: with [total_steps] from 1 to 4 the steps up to 4 are
    delegations although they already count as complete. *)
Theorem review_completes_at_step_5 (s t : Z) :
  1 <= s -> 1 <= t <= 5 ->
  (get_review_step_guidance s t = review_complete <-> 5 <= s)
  /\ get_review_step_guidance s t <> review_fallback (s + 1).
Proof.
  intros Hs Ht. split.
  - rewrite (review_case_iff s t RevTerminal).
    unfold spec_review_case. decide_chain s t.
  - intros H. apply (review_case_iff s t RevFallback) in H.
    revert H. unfold spec_review_case.
    destruct (Z.leb_spec t s);
      repeat match goal with
             | |- context [s =? ?k] => destruct (Z.eqb_spec s k)
             end;
      intros; try discriminate; lia.
Qed.

Lemma review_completes_at_step_5_witness :
  (get_review_step_guidance 5 4 = review_complete <-> 5 <= 5)
  /\ get_review_step_guidance 5 4 <> review_fallback (5 + 1).
Proof.
  apply (review_completes_at_step_5 5 4); lia.
Defined.

(** ** What the results say *)

(** X4. The [next] text of every result that is not a terminal one names
    the step after the current one: it contains [step] followed by the
    numeral of [step_number + 1], also where the source writes that
    number as a literal (planning step 3, review step 4). *)
Theorem next_names_successor (s t : Z) :
  (s < t ->
   occurs_in ("step " ++ str_of_int (s + 1))
     (next (get_planning_step_guidance s t)))
  /\ (1 <= s <= 4 \/ s < t ->
      occurs_in ("step " ++ str_of_int (s + 1))
        (next (get_review_step_guidance s t))).
Proof.
  split; intros H.
  - rewrite planning_refines_spec. unfold spec_planning_case.
    destruct (Z.leb_spec t s); [lia|].
    repeat match goal with
           | |- context [s =? ?k] =>
               destruct (Z.eqb_spec s k);
               [subst s; apply occursb_sound; vm_compute; reflexivity|]
           end.
    exists "Invoke ",
      (". " ++ str_of_int (t - s)
       ++ " step(s) remaining until completion. (Or invoke earlier step if backtracking.)")%string.
    cbn [planning_payload planning_steps_5_plus next].
    now rewrite !str_app_assoc.
  - rewrite review_refines_spec. unfold spec_review_case.
    repeat match goal with
           | |- context [s =? ?k] =>
               destruct (Z.eqb_spec s k);
               [subst s; apply occursb_sound; vm_compute; reflexivity|]
           end.
    destruct (Z.leb_spec t s); [lia|].
    exists "Invoke ", " when ready.".
    cbn [review_payload review_fallback next].
    now rewrite !str_app_assoc.
Qed.

Lemma next_names_successor_witness :
  occurs_in ("step " ++ str_of_int (3 + 1))
    (next (get_planning_step_guidance 3 6))
  /\ occurs_in ("step " ++ str_of_int (4 + 1))
       (next (get_review_step_guidance 4 4)).
Proof.
  split.
  - apply (proj1 (next_names_successor 3 6)). lia.
  - apply (proj2 (next_names_successor 4 4)). lia.
Defined.

(** No action of any result spans more than one line. *)
Lemma planning_actions_single_line (s t : Z) :
  Forall (fun a => has_nl a = false)
    (actions (get_planning_step_guidance s t)).
Proof.
  rewrite planning_refines_spec.
  destruct (spec_planning_case s t); repeat constructor.
Qed.

Lemma review_actions_single_line (s t : Z) :
  Forall (fun a => has_nl a = false)
    (actions (get_review_step_guidance s t)).
Proof.
  rewrite review_refines_spec.
  destruct (spec_review_case s t); repeat constructor.
Qed.

Lemma guidance_actions_single_line (args : Args) :
  Forall (fun a => has_nl a = false) (actions (guidance_of args)).
Proof.
  unfold guidance_of. destruct (phase args).
  - apply planning_actions_single_line.
  - apply review_actions_single_line.
Qed.

Lemma guidance_actions_truthy (args : Args) :
  list_truthy (actions (guidance_of args)) = true.
Proof.
  unfold guidance_of. destruct (phase args).
  - rewrite planning_refines_spec.
    now destruct (spec_planning_case _ _).
  - rewrite review_refines_spec.
    now destruct (spec_review_case _ _).
Qed.

(** X5. The loop over the actions writes a block from which the list is
    read back exactly, for every result of either selector: one line per
    action, blank for an empty action and indented by two spaces
    otherwise, and no action is split over lines. *)
Theorem actions_read_back (s t : Z) :
  let written := fun l : list string =>
    stdout (snd (for_each l (fun action =>
                   if str_truthy action
                   then print ("  " ++ action)%string
                   else print_blank) no_output)) in
  read_actions (written (actions (get_planning_step_guidance s t)))
  = actions (get_planning_step_guidance s t)
  /\ read_actions (written (actions (get_review_step_guidance s t)))
     = actions (get_review_step_guidance s t).
Proof.
  intros written.
  assert (Hback : forall l, Forall (fun a => has_nl a = false) l ->
                            read_actions (written l) = l).
  { intros l Hl. unfold written, read_actions.
    rewrite for_each_render. cbn [snd stdout no_output append].
    rewrite (split_lines_render_actions l Hl), removelast_last, map_map.
    rewrite <- (map_id l) at 2. apply map_ext.
    intros a. apply unindent_action_line. }
  split; apply Hback.
  - apply planning_actions_single_line.
  - apply review_actions_single_line.
Qed.

(** ** The report, line by line *)

Lemma has_nl_title_line (args : Args) : has_nl (title_line args) = false.
Proof.
  unfold title_line. rewrite !has_nl_app, !has_nl_str_of_int.
  now destruct (phase args).
Qed.

Lemma has_nl_status_text (args : Args) : has_nl (status_text args) = false.
Proof.
  unfold status_text. now destruct (step_number args >=? total_steps args).
Qed.

Lemma actions_block_heading (args : Args) :
  actions_block args
  = (actions_heading args ++ nl
     ++ render_actions (actions (guidance_of args)) ++ nl)%string.
Proof.
  unfold actions_block. cbv zeta. now rewrite guidance_actions_truthy.
Qed.

Lemma split_lines_report_text (args : Args) :
  split_lines (report_text args)
  = [str_mul "=" 80; title_line args; str_mul "=" 80; EmptyString;
     status_text args; EmptyString; "YOUR THOUGHTS:"]
    ++ split_lines (thoughts args)
    ++ [EmptyString; actions_heading args]
    ++ map action_line (actions (guidance_of args))
    ++ [EmptyString; "NEXT:"]
    ++ split_lines (next (guidance_of args))
    ++ [EmptyString; str_mul "=" 80; EmptyString].
Proof.
  unfold report_text.
  rewrite actions_block_heading, !str_app_assoc.
  rewrite split_lines_cons by reflexivity.
  rewrite split_lines_cons by apply has_nl_title_line.
  rewrite split_lines_cons by reflexivity.
  rewrite split_lines_blank.
  rewrite split_lines_cons by apply has_nl_status_text.
  rewrite split_lines_blank.
  rewrite split_lines_cons by reflexivity.
  rewrite split_lines_app, split_lines_blank.
  rewrite split_lines_cons
    by (unfold actions_heading;
        now destruct (step_number args >=? total_steps args)).
  rewrite split_lines_app.
  rewrite split_lines_render_actions by apply guidance_actions_single_line.
  rewrite split_lines_cons by reflexivity.
  rewrite split_lines_app.
  change (split_lines (nl ++ str_mul "=" 80 ++ nl))
    with [EmptyString; str_mul "=" 80; EmptyString].
  cbn [app]. rewrite <- !app_assoc. reflexivity.
Qed.

(** X6. For a valid step position the report is, line by line: the
    banner of three lines, a blank line, the status line, a blank line,
    the heading and the lines of the notes, a blank line, the actions
    heading ([FINAL CHECKLIST:] when [step_number >= total_steps], else
    [REQUIRED ACTIONS:]), one line per action, a blank line, [NEXT:] and
    the lines of the directive, a blank line and the closing rule.  The
    actions section is never left out. *)
Theorem report_lines (args : Args) :
  1 <= step_number args -> 1 <= total_steps args ->
  split_lines (stdout (snd (run_main args)))
  = [str_mul "=" 80; title_line args; str_mul "=" 80; EmptyString;
     status_text args; EmptyString; "YOUR THOUGHTS:"]
    ++ split_lines (thoughts args)
    ++ [EmptyString; actions_heading args]
    ++ map action_line (actions (guidance_of args))
    ++ [EmptyString; "NEXT:"]
    ++ split_lines (next (guidance_of args))
    ++ [EmptyString; str_mul "=" 80; EmptyString].
Proof.
  intros Hs Ht. rewrite run_main_valid by assumption.
  cbn [snd stdout]. apply split_lines_report_text.
Qed.

Lemma report_lines_witness :
  let args := mkArgs review 6 9 ("first" ++ nl ++ "second")%string in
  split_lines (stdout (snd (run_main args)))
  = [str_mul "=" 80; title_line args; str_mul "=" 80; EmptyString;
     status_text args; EmptyString; "YOUR THOUGHTS:"]
    ++ split_lines (thoughts args)
    ++ [EmptyString; actions_heading args]
    ++ map action_line (actions (guidance_of args))
    ++ [EmptyString; "NEXT:"]
    ++ split_lines (next (guidance_of args))
    ++ [EmptyString; str_mul "=" 80; EmptyString].
Proof.
  intros args. apply (report_lines args); simpl; lia.
Defined.

(** ** The report identifies the invocation *)

Lemma has_space_uint (d : Decimal.uint) :
  has_char " " (NilEmpty.string_of_uint d) = false.
Proof. induction d; simpl; auto. Qed.

Lemma has_space_str_of_int (n : Z) : has_char " " (str_of_int n) = false.
Proof.
  unfold str_of_int.
  destruct (Z.to_int n) as [d|d]; simpl;
    destruct d; simpl; auto using has_space_uint.
Qed.

Lemma str_of_int_inj (n m : Z) : str_of_int n = str_of_int m -> n = m.
Proof.
  intros H.
  assert (E : Some n = Some m)
    by now rewrite <- (str_of_int_decimal n), <- (str_of_int_decimal m), H.
  now injection E.
Qed.

Lemma title_line_inj (a a' : Args) :
  title_line a = title_line a' ->
  phase a = phase a'
  /\ step_number a = step_number a'
  /\ total_steps a = total_steps a'.
Proof.
  unfold title_line. intros H.
  apply str_app_inv_head in H.
  assert (Hph : phase a = phase a').
  { destruct (phase a), (phase a'); try reflexivity;
      cbn in H; discriminate H. }
  rewrite Hph in H. split; [exact Hph|].
  do 2 apply str_app_inv_head in H.
  change (" of " ++ str_of_int (total_steps a))%string
    with (String " " ("of " ++ str_of_int (total_steps a))) in H.
  change (" of " ++ str_of_int (total_steps a'))%string
    with (String " " ("of " ++ str_of_int (total_steps a'))) in H.
  apply str_cut_at_char in H as [Hs Ht];
    try apply has_space_str_of_int.
  apply str_app_inv_head in Ht.
  split; now apply str_of_int_inj.
Qed.

Lemma title_of_report (args : Args) :
  nth_error (split_lines (report_text args)) 1 = Some (title_line args).
Proof. now rewrite split_lines_report_text. Qed.

Lemma report_text_inj (a a' : Args) :
  report_text a = report_text a' -> a = a'.
Proof.
  intros H.
  assert (Ht : title_line a = title_line a').
  { apply (f_equal (fun out => nth_error (split_lines out) 1)) in H.
    cbv beta in H. rewrite !title_of_report in H. congruence. }
  destruct (title_line_inj a a' Ht) as (Hph & Hs & Hts).
  destruct a as [ph s t th], a' as [ph' s' t' th'].
  cbn [phase step_number total_steps] in Hph, Hs, Hts. subst ph' s' t'.
  f_equal.
  pose (before := (str_mul "=" 80 ++ nl
                   ++ title_line (mkArgs ph s t th) ++ nl
                   ++ str_mul "=" 80 ++ nl ++ nl
                   ++ status_text (mkArgs ph s t th) ++ nl ++ nl
                   ++ "YOUR THOUGHTS:" ++ nl)%string).
  pose (after := (nl ++ nl ++ actions_block (mkArgs ph s t th)
                  ++ "NEXT:" ++ nl
                  ++ next (guidance_of (mkArgs ph s t th)) ++ nl ++ nl
                  ++ str_mul "=" 80 ++ nl)%string).
  assert (E : forall n : string,
             report_text (mkArgs ph s t n) = (before ++ n ++ after)%string).
  { intros n. unfold report_text, before, after.
    rewrite !str_app_assoc. reflexivity. }
  clearbody before after. rewrite !E in H.
  apply (str_app_inv_head before) in H.
  exact (str_app_inv_tail th th' after H).
Qed.

(** X7. Two valid invocations that print the same report had the same
    arguments: the phase, both numbers and the notes are determined by
    the text written to standard output. *)
Theorem report_identifies_arguments (a a' : Args) :
  1 <= step_number a -> 1 <= total_steps a ->
  1 <= step_number a' -> 1 <= total_steps a' ->
  stdout (snd (run_main a)) = stdout (snd (run_main a')) ->
  a = a'.
Proof.
  intros Hs Ht Hs' Ht' H.
  rewrite !run_main_valid in H by assumption.
  now apply report_text_inj.
Qed.

Lemma report_identifies_arguments_witness :
  mkArgs planning 2 (1 + 2) "notes" = mkArgs planning 2 3 "notes".
Proof.
  apply (report_identifies_arguments
           (mkArgs planning 2 (1 + 2) "notes") (mkArgs planning 2 3 "notes"));
    [cbn; lia | cbn; lia | cbn; lia | cbn; lia | vm_compute; reflexivity].
Defined.

(** X8. In the planning phase the status line and the content agree:
    the report reads [phase_complete] exactly when the actions are the
    final verification.  (In the review phase they can differ, as at
    step 4 of 4.) *)
Theorem planning_status_matches_content (s t : Z) (th : string) :
  1 <= s -> 1 <= t ->
  status_line (stdout (snd (run_main (mkArgs planning s t th))))
  = Some "STATUS: phase_complete"
  <-> guidance_of (mkArgs planning s t th) = planning_final_verification.
Proof.
  intros Hs Ht. rewrite run_main_valid by assumption.
  cbn [snd stdout]. rewrite status_line_report.
  unfold guidance_of. cbn [phase step_number total_steps].
  rewrite (planning_case_iff s t PlanTerminal).
  split; intros H.
  - assert (E : status_text (mkArgs planning s t th)
                = "STATUS: phase_complete") by congruence.
    apply status_text_complete in E. cbn in E.
    unfold spec_planning_case. now apply Z.leb_le in E as ->.
  - f_equal. apply status_text_complete. cbn.
    revert H. unfold spec_planning_case.
    destruct (Z.leb_spec t s); [intros _; assumption|].
    repeat match goal with
           | |- context [s =? ?k] => destruct (s =? k)
           end; discriminate.
Qed.

Lemma planning_status_matches_content_witness :
  status_line (stdout (snd (run_main (mkArgs planning 3 3 "notes"))))
  = Some "STATUS: phase_complete"
  <-> guidance_of (mkArgs planning 3 3 "notes") = planning_final_verification.
Proof.
  apply (planning_status_matches_content 3 3 "notes"); lia.
Defined.
